(** * The Docker Hub backend of Perceval

    A shallow embedding of [perceval/backends/core/dockerhub.py]: the
    connector [DockerHub], its REST client [DockerHubClient], and the
    properties of one fetch.

    Python values are modelled as they are at run time: a parsed JSON
    document is a tree whose objects are finite maps from strings, a
    timestamp is a binary64 float, an exception is a value that aborts
    the computation.  Input and output (the HTTP transport, the wall
    clock, the logger, the generator's [yield]) are made explicit as a
    trace of events threaded through a small state-and-error monad. *)

From Stdlib Require Import ZArith String Ascii List Floats.
From stdpp Require Import base option gmap strings pretty list fin_maps.

Set Warnings "-register-all".

Local Open Scope string_scope.
Local Open Scope list_scope.

(** ** Strings *)

(** [str.lstrip(c)], [str.rstrip(c)] and [str.strip(c)] for a single
    character [c]. *)
Fixpoint lstrip (c : ascii) (s : string) : string :=
  match s with
  | EmptyString => EmptyString
  | String a s' => if Ascii.eqb a c then lstrip c s' else s
  end.

Fixpoint rstrip (c : ascii) (s : string) : string :=
  match s with
  | EmptyString => EmptyString
  | String a s' =>
      match rstrip c s' with
      | EmptyString => if Ascii.eqb a c then EmptyString else String a EmptyString
      | r => String a r
      end
  end.

Definition strip (c : ascii) (s : string) : string := rstrip c (lstrip c s).

(** [sep.join(parts)]. *)
Fixpoint join (sep : string) (parts : list string) : string :=
  match parts with
  | [] => EmptyString
  | [p] => p
  | p :: rest => p +:+ sep +:+ join sep rest
  end.

(** [grimoirelab_toolkit.uris.urijoin], imported by the backend: every
    part loses its leading and trailing slashes and the parts are then
    joined with single slashes,
    ['/'.join(map(lambda x: str(x).strip('/'), args))]. *)
Definition urijoin (args : list string) : string :=
  join "/" (map (strip "/"%char) args).

(** A string that neither begins nor ends with a slash: [urijoin] leaves
    it as it is. *)
Definition slash_free_ends (s : string) : Prop := strip "/"%char s = s.

(** ** Module constants *)

Definition CATEGORY_DOCKERHUB_DATA : string := "dockerhub-data".

Definition DOCKERHUB_URL : string := "https://hub.docker.com/".
Definition DOCKERHUB_API_URL : string := urijoin [DOCKERHUB_URL; "v2"].

Definition DOCKER_OWNER : string := "library".
Definition DOCKER_SHORTCUT_OWNER : string := "_".

(** ** Values, exceptions and results *)

(** What [json.loads] returns: [None], a [bool], an [int], a [float], a
    [str], a [list] or a [dict] with string keys. *)
Inductive json : Type :=
| JNull
| JBool (b : bool)
| JInt (z : Z)
| JFloat (f : float)
| JStr (s : string)
| JList (l : list json)
| JDict (m : gmap string json).

(** The exceptions that can cross the backend. *)
Inductive exn : Type :=
| AttributeError (msg : string)
| TypeError (msg : string)
| KeyError (key : string)
| JSONDecodeError (msg : string)
| BackendError (cause : string)
| HTTPError (status : Z)
| ConnectionError (msg : string).

Inductive result (A : Type) : Type :=
| Ok (a : A)
| Raise (e : exn).
Arguments Ok {A} a.
Arguments Raise {A} e.

Definition result_bind {A B} (r : result A) (k : A → result B) : result B :=
  match r with
  | Ok a => k a
  | Raise e => Raise e
  end.

(** [obj[key]] for a string key. *)
Definition getitem (obj : json) (key : string) : result json :=
  match obj with
  | JDict m =>
      match m !! key with
      | Some v => Ok v
      | None => Raise (KeyError key)
      end
  | JList _ => Raise (TypeError "list indices must be integers or slices, not str")
  | JStr _ => Raise (TypeError "string indices must be integers")
  | _ => Raise (TypeError "object is not subscriptable")
  end.

(** [obj[key] = v] for a string key: only a [dict] accepts it, where the
    key is added, or its value replaced. *)
Definition setitem (obj : json) (key : string) (v : json) : result json :=
  match obj with
  | JDict m => Ok (JDict (<[key := v]> m))
  | JList _ => Raise (TypeError "list indices must be integers or slices, not str")
  | _ => Raise (TypeError "object does not support item assignment")
  end.

(** The two functions of the Python run time the backend calls on data:
    [json.loads] and the built-in [str]. *)
Class Runtime : Type := {
  json_loads : string → result json;
  py_str : json → string
}.

(** ** Requests, events and the environment *)

Inductive http_method : Type := GET | POST.

Record request : Type := {
  req_method : http_method;
  req_url : string;
  req_payload : option (list (string * string));
  req_headers : option (list (string * string))
}.

Record response : Type := {
  status_code : Z;
  text : string
}.

Inductive loglevel : Type := DEBUG | INFO.

(** What one run does to the outside, in the order it does it. *)
Inductive event : Type :=
| Log (level : loglevel) (msg : string)
| Http (req : request) (out : result response)
| Clock (t : float)
| Yield (item : json).

(** The outside of the backend: what the HTTP transport answers to a
    request, and what the wall clock shows after a given history. *)
Record Env : Type := {
  http : request → result response;
  utcnow : list event → float
}.

(** ** Computations *)

(** A computation runs on the events so far; it returns a value or raises,
    and extends the events. *)
Definition M (A : Type) : Type := list event → result A * list event.

Definition ret {A} (a : A) : M A := λ tr, (Ok a, tr).

Definition bind {A B} (m : M A) (k : A → M B) : M B :=
  λ tr, match m tr with
        | (Ok a, tr') => k a tr'
        | (Raise e, tr') => (Raise e, tr')
        end.

Definition raise {A} (e : exn) : M A := λ tr, (Raise e, tr).

Definition lift {A} (r : result A) : M A := λ tr, (r, tr).

Definition emit (ev : event) : M unit := λ tr, (Ok tt, tr ++ [ev]).

Notation "'let!' x ':=' m 'in' k" := (bind m (λ x, k))
  (at level 10, x name, m at level 100, k at level 200).
Notation "m '>>' k" := (bind m (λ _, k))
  (at level 100, k at level 200, right associativity).

(** [logger.info] and [logger.debug]. *)
Definition logger_info (msg : string) : M unit := emit (Log INFO msg).
Definition logger_debug (msg : string) : M unit := emit (Log DEBUG msg).

(** [yield item] of a generator that is run to its end. *)
Definition yield (item : json) : M unit := emit (Yield item).

(** [datetime_utcnow().timestamp()]. *)
Definition datetime_utcnow_timestamp (env : Env) : M float :=
  λ tr, let t := utcnow env tr in (Ok t, tr ++ [Clock t]).

(** The items a trace yielded, and the requests it sent. *)
Definition yielded (tr : list event) : list json :=
  omap (λ ev, match ev with Yield item => Some item | _ => None end) tr.

Definition requests (tr : list event) : list request :=
  omap (λ ev, match ev with Http req _ => Some req | _ => None end) tr.

(** How a computation ends when it starts after [tr], and the events it
    adds to [tr]. *)
Definition outcome {A} (m : M A) (tr : list event) : result A := fst (m tr).

Definition events_of {A} (m : M A) (tr : list event) : list event :=
  drop (length tr) (snd (m tr)).

(** ** The host framework *)

(** An archive of raw responses is known to the backend only as a handle
    that it passes on. *)
Inductive Archive : Type := ArchiveAt (path : string).

Module HttpClient.

(** Modelled from the spec: [perceval.client.HttpClient] is not among
    the sources.  Its constructor keeps the base URL, the archive and
    the replay flag it is given. *)
Record t : Type := {
  base_url : string;
  archive : option Archive;
  from_archive : bool
}.

Definition __init__ (base_url : string) (archive : option Archive)
    (from_archive : bool) : t :=
  {| base_url := base_url; archive := archive; from_archive := from_archive |}.

(** Modelled from the spec: [HttpClient.fetch(url, payload=None,
    headers=None, method=GET)] sends one request and returns the
    response, or fails with the error of the transport; the answer is
    the environment's. *)
Definition fetch (env : Env) (self : t) (url : string)
    (payload headers : option (list (string * string)))
    (method : http_method) : M response :=
  λ tr,
    let req := {| req_method := method; req_url := url;
                  req_payload := payload; req_headers := headers |} in
    let out := http env req in
    (out, tr ++ [Http req out]).

End HttpClient.

Module Backend.

(** Modelled from the spec: [perceval.backend.Backend] is not among the
    sources.  Its constructor keeps the origin, which identifies the
    data source, with the tag and the archive it is given. *)
Record t : Type := {
  origin : string;
  tag : option string;
  archive : option Archive
}.

Definition __init__ (origin : string) (tag : option string)
    (archive : option Archive) : t :=
  {| origin := origin; tag := tag; archive := archive |}.

(** Modelled from the spec: [Backend.fetch(category)] first validates
    the category against the categories of the class, and rejects any
    other; it then delegates to the item-fetch operation of the
    subclass, on the client the subclass builds. *)
Definition fetch {Self Client : Type}
    (CATEGORIES : list string)
    (_init_client : Self → Client)
    (set_client : Self → Client → Self)
    (fetch_items : Self → string → M unit)
    (self : Self) (category : string) : M unit :=
  if decide (category ∈ CATEGORIES)
  then fetch_items (set_client self (_init_client self)) category
  else raise (BackendError (category +:+ " category not valid")).

End Backend.

(** ** The client of the Docker Hub REST API *)

Module DockerHubClient.

Definition t : Type := HttpClient.t.

Definition RREPOSITORY : string := "repositories".

Definition __init__ (archive : option Archive) (from_archive : bool) : t :=
  HttpClient.__init__ DOCKERHUB_API_URL archive from_archive.

(** Fetch information about a repository. *)
Definition repository (env : Env) (self : t) (owner repository : string)
    : M string :=
  let url := urijoin [HttpClient.base_url self; RREPOSITORY; owner; repository] in
  logger_debug ("DockerHub client requests: " +:+ url) >>
  let! response := HttpClient.fetch env self url None None GET in
  ret (text response).

End DockerHubClient.

(** ** The backend *)

Module DockerHub.

Definition version : string := "0.4.2".

Definition CATEGORIES : list string := [CATEGORY_DOCKERHUB_DATA].

Record t : Type := {
  base : Backend.t;
  owner : string;
  repository : string;
  client : option DockerHubClient.t
}.

Definition origin (self : t) : string := Backend.origin (base self).
Definition archive (self : t) : option Archive := Backend.archive (base self).

Definition __init__ (owner repository : string) (tag : option string)
    (archive : option Archive) : t :=
  let owner := if String.eqb owner DOCKER_SHORTCUT_OWNER
               then DOCKER_OWNER else owner in
  let origin := urijoin [DOCKERHUB_URL; owner; repository] in
  {| base := Backend.__init__ origin tag archive;
     owner := owner;
     repository := repository;
     client := None |}.

Definition has_archiving : bool := true.
Definition has_resuming : bool := true.

Section WithRuntime.
Context `{Runtime}.

(** Extracts the identifier from a Docker Hub item. *)
Definition metadata_id (item : json) : result string :=
  result_bind (getitem item "fetched_on") (λ v, Ok (py_str v)).

(** Extracts the update time from a Docker Hub item. *)
Definition metadata_updated_on (item : json) : result json :=
  getitem item "fetched_on".

(** Extracts the category from a Docker Hub item. *)
Definition metadata_category (item : json) : string :=
  CATEGORY_DOCKERHUB_DATA.

(** Parse a Docker Hub JSON stream. *)
Definition parse_json (raw_json : string) : result json :=
  result_bind (json_loads raw_json) (λ result, Ok result).

Definition _init_client (self : t) (from_archive : bool) : DockerHubClient.t :=
  DockerHubClient.__init__ (archive self) from_archive.

(** [self.client.repository]: the method is looked up on the client,
    which is [None] until the framework has set it. *)
Definition self_client (self : t) : M DockerHubClient.t :=
  match client self with
  | Some c => ret c
  | None => raise (AttributeError
                     "'NoneType' object has no attribute 'repository'")
  end.

(** Fetch the Docker Hub items. *)
Definition fetch_items (env : Env) (self : t) (category : string) : M unit :=
  logger_info ("Fetching data from '" +:+ repository self
               +:+ "' repository of '" +:+ owner self +:+ "' owner") >>
  let! client := self_client self in
  let! raw_data := DockerHubClient.repository env client
                     (owner self) (repository self) in
  let! fetched_on := datetime_utcnow_timestamp env in
  let! data := lift (parse_json raw_data) in
  let! data := lift (setitem data "fetched_on" (JFloat fetched_on)) in
  yield data >>
  logger_info "Fetch process completed".

(** Fetch data from a Docker Hub repository. *)
Definition fetch (env : Env) (self : t) (category : string) : M unit :=
  Backend.fetch CATEGORIES
    (λ self, _init_client self false)
    (λ self c, {| base := base self; owner := owner self;
                  repository := repository self; client := Some c |})
    (fetch_items env) self category.

End WithRuntime.

End DockerHub.

(** ** A run time and an environment to execute the backend on

    The theorems below hold for every [Runtime] and every [Env].  This
    module provides one of each, so that the backend can be run on
    sample data. *)

Module Sample.

Definition dquote : ascii := "034"%char.

Definition is_space (c : ascii) : bool :=
  (Ascii.eqb c " " || Ascii.eqb c "009" || Ascii.eqb c "010"
   || Ascii.eqb c "013")%bool%char.

Fixpoint skip_space (s : string) : string :=
  match s with
  | String c s' => if is_space c then skip_space s' else s
  | EmptyString => EmptyString
  end.

Definition unescape (c : ascii) : option ascii :=
  (if Ascii.eqb c dquote then Some dquote
   else if Ascii.eqb c "\" then Some "\"
   else if Ascii.eqb c "/" then Some "/"
   else if Ascii.eqb c "n" then Some "010"
   else if Ascii.eqb c "t" then Some "009"
   else if Ascii.eqb c "r" then Some "013"
   else if Ascii.eqb c "b" then Some "008"
   else if Ascii.eqb c "f" then Some "012"
   else None)%char.

(** The characters of a string literal, after its opening quote. *)
Fixpoint string_body (s : string) : option (string * string) :=
  match s with
  | EmptyString => None
  | String c s' =>
      if Ascii.eqb c dquote then Some (EmptyString, s')
      else if Ascii.eqb c "\"%char then
        match s' with
        | String e s'' =>
            match unescape e, string_body s'' with
            | Some ch, Some (body, rest) => Some (String ch body, rest)
            | _, _ => None
            end
        | EmptyString => None
        end
      else if (nat_of_ascii c <? 32)%nat then None
      else
        match string_body s' with
        | Some (body, rest) => Some (String c body, rest)
        | None => None
        end
  end.

Definition digit (c : ascii) : option Z :=
  let n := nat_of_ascii c in
  if ((48 <=? n) && (n <=? 57))%nat then Some (Z.of_nat n - 48)%Z else None.

Fixpoint digits (acc : Z) (s : string) : Z * string :=
  match s with
  | String c s' =>
      match digit c with
      | Some d => digits (acc * 10 + d)%Z s'
      | None => (acc, s)
      end
  | EmptyString => (acc, s)
  end.

(** An integer literal; a fraction or an exponent is outside the
    fragment. *)
Definition integer (s : string) : option (Z * string) :=
  let '(sign, s1) := match s with
                     | String "-"%char s' => ((-1)%Z, s')
                     | _ => (1%Z, s)
                     end in
  match s1 with
  | String c s2 =>
      match digit c with
      | Some d =>
          let '(n, rest) := if (d =? 0)%Z then (0%Z, s2) else digits d s2 in
          match rest with
          | String "."%char _ | String "e"%char _ | String "E"%char _ => None
          | String c' _ =>
              match digit c' with
              | Some _ => None
              | None => Some ((sign * n)%Z, rest)
              end
          | EmptyString => Some ((sign * n)%Z, rest)
          end
      | None => None
      end
  | EmptyString => None
  end.

Definition keyword (kw : string) (v : json) (s : string)
    : option (json * string) :=
  if String.prefix kw s
  then Some (v, String.substring (String.length kw)
                  (String.length s - String.length kw) s)
  else None.

Fixpoint value (fuel : nat) (s : string) : option (json * string) :=
  match fuel with
  | O => None
  | S fuel =>
      match skip_space s with
      | String "{"%char s1 =>
          match skip_space s1 with
          | String "}"%char s2 => Some (JDict ∅, s2)
          | s2 => members fuel s2 ∅
          end
      | String "["%char s1 =>
          match skip_space s1 with
          | String "]"%char s2 => Some (JList [], s2)
          | s2 => elements fuel s2 []
          end
      | String c s1 as s0 =>
          if Ascii.eqb c dquote then
            match string_body s1 with
            | Some (body, rest) => Some (JStr body, rest)
            | None => None
            end
          else if Ascii.eqb c "n"%char then keyword "null" JNull s0
          else if Ascii.eqb c "t"%char then keyword "true" (JBool true) s0
          else if Ascii.eqb c "f"%char then keyword "false" (JBool false) s0
          else
            match integer s0 with
            | Some (n, rest) => Some (JInt n, rest)
            | None => None
            end
      | EmptyString => None
      end
  end
with members (fuel : nat) (s : string) (acc : gmap string json)
    : option (json * string) :=
  match fuel with
  | O => None
  | S fuel =>
      match skip_space s with
      | String c s1 =>
          if Ascii.eqb c dquote then
            match string_body s1 with
            | Some (key, s2) =>
                match skip_space s2 with
                | String ":"%char s3 =>
                    match value fuel s3 with
                    | Some (v, s4) =>
                        match skip_space s4 with
                        | String ","%char s5 => members fuel s5 (<[key := v]> acc)
                        | String "}"%char s5 => Some (JDict (<[key := v]> acc), s5)
                        | _ => None
                        end
                    | None => None
                    end
                | _ => None
                end
            | None => None
            end
          else None
      | EmptyString => None
      end
  end
with elements (fuel : nat) (s : string) (acc : list json)
    : option (json * string) :=
  match fuel with
  | O => None
  | S fuel =>
      match value fuel s with
      | Some (v, s1) =>
          match skip_space s1 with
          | String ","%char s2 => elements fuel s2 (acc ++ [v])
          | String "]"%char s2 => Some (JList (acc ++ [v]), s2)
          | _ => None
          end
      | None => None
      end
  end.

(** A reader for the fragment of JSON without fractions, exponents and
    [\u] escapes; a later member of an object replaces an earlier one
    with the same name, as in Python. *)
Definition loads (s : string) : result json :=
  match value (S (String.length s)) s with
  | Some (v, rest) =>
      match skip_space rest with
      | EmptyString => Ok v
      | _ => Raise (JSONDecodeError "Extra data")
      end
  | None => Raise (JSONDecodeError "Expecting value")
  end.

Definition pad_zeros (width : nat) (s : string) : string :=
  String.concat "" (replicate (width - String.length s) "0") +:+ s.

(** [str] of a float, whose value is [m * 2 ^ e].  An integral value is
    printed with one zero decimal, as Python does below [10 ^ 16]; any
    other value is written out in full, where Python stops at the
    shortest decimal that reads back. *)
Definition str_float (f : float) : string :=
  match Prim2SF f with
  | S754_zero false => "0.0"
  | S754_zero true => "-0.0"
  | S754_infinity false => "inf"
  | S754_infinity true => "-inf"
  | S754_nan => "nan"
  | S754_finite sign m e =>
      let sgn := if sign then "-" else "" in
      if (0 <=? e)%Z
      then sgn +:+ pretty (Z.pos m * 2 ^ e)%Z +:+ ".0"
      else
        let k := (- e)%Z in
        let whole := (Z.pos m / 2 ^ k)%Z in
        let part := ((Z.pos m mod 2 ^ k) * 5 ^ k)%Z in
        let decimals := rstrip "0" (pad_zeros (Z.to_nat k) (pretty part)) in
        sgn +:+ pretty whole +:+ "."
            +:+ (if String.eqb decimals "" then "0" else decimals)
  end.

(** [str] on the scalar values; a container is abbreviated. *)
Definition str (v : json) : string :=
  match v with
  | JNull => "None"
  | JBool true => "True"
  | JBool false => "False"
  | JInt z => pretty z
  | JFloat f => str_float f
  | JStr s => s
  | JList _ => "[...]"
  | JDict _ => "{...}"
  end.

#[export] Instance runtime : Runtime :=
  {| json_loads := loads; py_str := str |}.

Definition quoted (s : string) : string :=
  String dquote s +:+ String dquote EmptyString.

(** The body [{"name": "python", "pull_count": 100}]. *)
Definition python_body : string :=
  "{" +:+ quoted "name" +:+ ": " +:+ quoted "python" +:+ ", "
      +:+ quoted "pull_count" +:+ ": 100}".

(** A registry that knows the official [python] image and the
    [grimoirelab] owner: [grimoirelab/perceval] answers with a list,
    [grimoirelab/broken] with a page that is not JSON; anything else is
    not found. *)
Definition registry (req : request) : result response :=
  let url := req_url req in
  if String.eqb url "https://hub.docker.com/v2/repositories/library/python"
  then Ok {| status_code := 200; text := python_body |}
  else if String.eqb url "https://hub.docker.com/v2/repositories/grimoirelab/perceval"
  then Ok {| status_code := 200; text := "[1, 2]" |}
  else if String.eqb url "https://hub.docker.com/v2/repositories/grimoirelab/broken"
  then Ok {| status_code := 200; text := "<html>" |}
  else Raise (HTTPError 404).

(** A clock that shows 1600000000.0 at the start and advances by one
    second with every event. *)
Definition clock (tr : list event) : float :=
  (1600000000.0 + PrimFloat.of_uint63 (Uint63.of_Z (Z.of_nat (length tr))))%float.

Definition env : Env := {| http := registry; utcnow := clock |}.

(** The connector of the official [python] image, as the framework
    prepares it for a fetch. *)
Definition connect (owner repository : string) : DockerHub.t :=
  let self := DockerHub.__init__ owner repository None None in
  {| DockerHub.base := DockerHub.base self;
     DockerHub.owner := DockerHub.owner self;
     DockerHub.repository := DockerHub.repository self;
     DockerHub.client := Some (DockerHub._init_client self false) |}.

(** The backend on this run time and this environment. *)
Definition fetch_items : DockerHub.t → string → M unit :=
  DockerHub.fetch_items env.
Definition fetch : DockerHub.t → string → M unit :=
  DockerHub.fetch env.
Definition metadata_id : json → result string := DockerHub.metadata_id.
Definition metadata_updated_on : json → result json :=
  DockerHub.metadata_updated_on.

(** The record of the official [python] image, fetched when the clock
    shows 1600000003.0. *)
Definition python_record : json :=
  JDict (<["fetched_on" := JFloat 1600000003.0]>
         (<["name" := JStr "python"]> (<["pull_count" := JInt 100]> ∅))).

Definition get (url : string) : request :=
  {| req_method := GET; req_url := url;
     req_payload := None; req_headers := None |}.

(** The requests for a repository the registry does not know, for the
    one it answers with a page, and for the one it answers with a list. *)
Definition missing_request : request :=
  get "https://hub.docker.com/v2/repositories/grimoirelab/none".
Definition broken_request : request :=
  get "https://hub.docker.com/v2/repositories/grimoirelab/broken".
Definition list_request : request :=
  get "https://hub.docker.com/v2/repositories/grimoirelab/perceval".

End Sample.

(** ** The vocabulary of the properties *)

(** The URL the spec writes for a repository. *)
Definition repository_endpoint (owner repository : string) : string :=
  "https://hub.docker.com/v2/repositories/" +:+ owner +:+ "/" +:+ repository.

(** The request [DockerHubClient.repository] hands to the transport. *)
Definition repository_request (c : DockerHubClient.t) (owner repository : string)
    : request :=
  {| req_method := GET;
     req_url := urijoin [HttpClient.base_url c; DockerHubClient.RREPOSITORY;
                         owner; repository];
     req_payload := None;
     req_headers := None |}.

(** The two messages [fetch_items] logs. *)
Definition started (self : DockerHub.t) : event :=
  Log INFO ("Fetching data from '" +:+ DockerHub.repository self
            +:+ "' repository of '" +:+ DockerHub.owner self +:+ "' owner").

Definition completed : event := Log INFO "Fetch process completed".

(** The message [repository] logs before its request. *)
Definition requesting (req : request) : event :=
  Log DEBUG ("DockerHub client requests: " +:+ req_url req).

Section Runs.
Context `{Runtime}.
Variables (env : Env) (self : DockerHub.t).

(** Every run of [fetch_items] is one of five: no client, a failed
    call, a body that does not parse, a parsed value that takes no
    field, or a record. *)
Inductive fetch_items_run (tr : list event)
    : result unit → list event → Prop :=
| run_no_client msg :
    DockerHub.client self = None →
    fetch_items_run tr (Raise (AttributeError msg)) [started self]
| run_call_failed c req e :
    DockerHub.client self = Some c →
    req = repository_request c (DockerHub.owner self) (DockerHub.repository self) →
    http env req = Raise e →
    fetch_items_run tr (Raise e)
      [started self; requesting req; Http req (Raise e)]
| run_parse_failed c req resp t e :
    DockerHub.client self = Some c →
    req = repository_request c (DockerHub.owner self) (DockerHub.repository self) →
    http env req = Ok resp →
    t = utcnow env (tr ++ [started self; requesting req; Http req (Ok resp)]) →
    json_loads (text resp) = Raise e →
    fetch_items_run tr (Raise e)
      [started self; requesting req; Http req (Ok resp); Clock t]
| run_not_a_dict c req resp t data e :
    DockerHub.client self = Some c →
    req = repository_request c (DockerHub.owner self) (DockerHub.repository self) →
    http env req = Ok resp →
    t = utcnow env (tr ++ [started self; requesting req; Http req (Ok resp)]) →
    json_loads (text resp) = Ok data →
    (∀ payload, data ≠ JDict payload) →
    setitem data "fetched_on" (JFloat t) = Raise e →
    fetch_items_run tr (Raise e)
      [started self; requesting req; Http req (Ok resp); Clock t]
| run_record c req resp t payload :
    DockerHub.client self = Some c →
    req = repository_request c (DockerHub.owner self) (DockerHub.repository self) →
    http env req = Ok resp →
    t = utcnow env (tr ++ [started self; requesting req; Http req (Ok resp)]) →
    json_loads (text resp) = Ok (JDict payload) →
    fetch_items_run tr (Ok tt)
      [started self; requesting req; Http req (Ok resp); Clock t;
       Yield (JDict (<["fetched_on" := JFloat t]> payload)); completed].

End Runs.

(** The readings of the clock in a trace. *)
Definition clock_readings (tr : list event) : list float :=
  omap (λ ev, match ev with Clock t => Some t | _ => None end) tr.

(** Whether a string holds a slash. *)
Fixpoint has_slash (s : string) : bool :=
  match s with
  | EmptyString => false
  | String a s' => Ascii.eqb a "/" || has_slash s'
  end.

(** The connector once the framework has given it its client, built by
    [_init_client]. *)
Definition with_client (self : DockerHub.t) (from_archive : bool) : DockerHub.t :=
  {| DockerHub.base := DockerHub.base self;
     DockerHub.owner := DockerHub.owner self;
     DockerHub.repository := DockerHub.repository self;
     DockerHub.client := Some (DockerHub._init_client self from_archive) |}.

(** The body of the official [python] image as the registry sends it,
    parsed: it has no [fetched_on]. *)
Definition python_payload : gmap string json :=
  <["name" := JStr "python"]> (<["pull_count" := JInt 100]> ∅).

(** The record of the official [python] image fetched at the time [t]. *)
Definition python_record_at (t : float) : json :=
  JDict (<["fetched_on" := JFloat t]> python_payload).

(** * Properties *)

(** ** URLs *)

Lemma DOCKERHUB_API_URL_eq : DOCKERHUB_API_URL = "https://hub.docker.com/v2".
Proof. reflexivity. Qed.

Lemma urijoin_api_repository (owner repository : string) :
  urijoin [DOCKERHUB_API_URL; DockerHubClient.RREPOSITORY; owner; repository]
  = repository_endpoint (strip "/" owner) (strip "/" repository).
Proof. reflexivity. Qed.

Lemma urijoin_api_repository_plain (owner repository : string) :
  slash_free_ends owner → slash_free_ends repository →
  urijoin [DOCKERHUB_API_URL; DockerHubClient.RREPOSITORY; owner; repository]
  = repository_endpoint owner repository.
Proof.
  unfold slash_free_ends. intros Ho Hr.
  by rewrite urijoin_api_repository, Ho, Hr.
Qed.

(** ** Traces *)

Lemma events_of_app {A} (m : M A) tr evs :
  snd (m tr) = tr ++ evs → events_of m tr = evs.
Proof. unfold events_of. intros ->. by rewrite drop_app_length. Qed.

Lemma events_of_raise {A} (e : exn) tr : events_of (raise (A := A) e) tr = [].
Proof. apply events_of_app. simpl. by rewrite app_nil_r. Qed.

(** ** One call of the client *)

Lemma repository_run env c owner repository tr :
  DockerHubClient.repository env c owner repository tr
  = let req := repository_request c owner repository in
    (result_bind (http env req) (λ response, Ok (text response)),
     tr ++ [requesting req; Http req (http env req)]).
Proof.
  unfold DockerHubClient.repository, HttpClient.fetch, logger_debug, emit,
    bind, ret, repository_request, requesting. simpl.
  destruct (http env _); simpl; by rewrite <- app_assoc.
Qed.

(** ** The runs of [fetch_items] *)

Section FetchItems.
Context `{Runtime}.
Variables (env : Env) (self : DockerHub.t) (category : string).

Lemma fetch_items_runs tr :
  ∃ res evs,
    DockerHub.fetch_items env self category tr = (res, tr ++ evs)
    ∧ fetch_items_run env self tr res evs.
Proof.
  unfold DockerHub.fetch_items, DockerHub.self_client, DockerHub.parse_json.
  unfold bind at 1, logger_info at 1, emit.
  destruct (DockerHub.client self) as [c|] eqn:Hc.
  2:{ eexists _, _. split; [reflexivity|]. by constructor. }
  unfold bind at 1, ret at 1. unfold bind at 1.
  rewrite repository_run. cbv zeta.
  set (req := repository_request c _ _).
  destruct (http env req) as [resp|e] eqn:Hhttp; cbn [result_bind].
  2:{ eexists _, _. split; [by rewrite <- app_assoc|].
      by eapply run_call_failed. }
  unfold bind at 1, datetime_utcnow_timestamp.
  unfold bind at 1, lift at 1.
  destruct (json_loads (text resp)) as [data|e] eqn:Hloads; cbn [result_bind].
  2:{ eexists _, _. split; [by rewrite <- !app_assoc|].
      eapply run_parse_failed; eauto; by rewrite <- app_assoc. }
  unfold bind at 1, lift at 1.
  destruct (setitem data "fetched_on" _) as [stamped|e] eqn:Hset.
  2:{ eexists _, _. split; [by rewrite <- !app_assoc|].
      rewrite <- app_assoc in Hset.
      eapply run_not_a_dict; eauto.
      intros payload ->. discriminate. }
  destruct data; try discriminate. simpl in Hset. injection Hset as <-.
  unfold bind, yield, logger_info, emit.
  eexists _, _. split; [by rewrite <- !app_assoc|].
  by eapply run_record.
Qed.

Lemma fetch_items_cases tr :
  fetch_items_run env self tr
    (outcome (DockerHub.fetch_items env self category) tr)
    (events_of (DockerHub.fetch_items env self category) tr).
Proof.
  destruct (fetch_items_runs tr) as (res & evs & Hrun & Hcase).
  unfold outcome. rewrite (events_of_app _ tr evs); by rewrite Hrun.
Qed.

End FetchItems.

(** Case analysis on the run of [fetch_items] that the goal is about. *)
Ltac run_cases :=
  match goal with
  | |- context [events_of (DockerHub.fetch_items ?env ?self ?cat) ?tr] =>
      let Hrun := fresh "Hrun" in
      pose proof (fetch_items_cases env self cat tr) as Hrun;
      generalize dependent (events_of (DockerHub.fetch_items env self cat) tr);
      generalize dependent (outcome (DockerHub.fetch_items env self cat) tr);
      intros ? ? Hrun; destruct Hrun
  end.

(** With its one category, [fetch] is [fetch_items] on a connector whose
    client is set. *)
Lemma fetch_delegates `{Runtime} (env : Env) (self : DockerHub.t) :
  DockerHub.fetch env self CATEGORY_DOCKERHUB_DATA
  = DockerHub.fetch_items env
      {| DockerHub.base := DockerHub.base self;
         DockerHub.owner := DockerHub.owner self;
         DockerHub.repository := DockerHub.repository self;
         DockerHub.client := Some (DockerHub._init_client self false) |}
      CATEGORY_DOCKERHUB_DATA.
Proof.
  unfold DockerHub.fetch, Backend.fetch, DockerHub.CATEGORIES.
  case_decide as Hin; [reflexivity|].
  destruct Hin. apply list_elem_of_here.
Qed.

(** ** The record of a successful fetch *)

(** C1: a fetch that succeeds yields exactly one record; the record has a
    [fetched_on] field, whose value is the reading of the UTC clock taken
    once the HTTP call of [client.repository] has returned, and before
    the record is yielded. *)
Theorem fetch_items_one_stamped_record `{Runtime} (env : Env)
    (self : DockerHub.t) (category : string) (tr : list event) :
  outcome (DockerHub.fetch_items env self category) tr = Ok tt →
  ∃ before req resp t record after,
    events_of (DockerHub.fetch_items env self category) tr
      = before ++ [Http req (Ok resp); Clock t; Yield record] ++ after
    ∧ requests (events_of (DockerHub.fetch_items env self category) tr) = [req]
    ∧ yielded (events_of (DockerHub.fetch_items env self category) tr) = [record]
    ∧ t = utcnow env (tr ++ before ++ [Http req (Ok resp)])
    ∧ getitem record "fetched_on" = Ok (JFloat t).
Proof.
  run_cases; intros Hok; try discriminate.
  eexists [_; _], req, resp, t, _, [_].
  split; [reflexivity|]. split; [reflexivity|]. split; [reflexivity|].
  split; [by subst t|].
  simpl. by rewrite lookup_insert_eq.
Qed.

Lemma fetch_items_one_stamped_record_witness :
  ∃ before req resp t record after,
    events_of (Sample.fetch_items (Sample.connect "_" "python")
                 CATEGORY_DOCKERHUB_DATA) []
      = before ++ [Http req (Ok resp); Clock t; Yield record] ++ after
    ∧ requests (events_of (Sample.fetch_items (Sample.connect "_" "python")
                  CATEGORY_DOCKERHUB_DATA) []) = [req]
    ∧ yielded (events_of (Sample.fetch_items (Sample.connect "_" "python")
                 CATEGORY_DOCKERHUB_DATA) []) = [record]
    ∧ t = utcnow Sample.env ([] ++ before ++ [Http req (Ok resp)])
    ∧ getitem record "fetched_on" = Ok (JFloat t).
Proof.
  apply (@fetch_items_one_stamped_record Sample.runtime Sample.env
           (Sample.connect "_" "python") CATEGORY_DOCKERHUB_DATA []).
  vm_compute. reflexivity.
Defined.

(** On the sample registry the fetch of the official [python] image
    yields the sample record, and nothing else. *)
Lemma python_record_yielded :
  yielded (events_of (Sample.fetch_items (Sample.connect "_" "python")
             CATEGORY_DOCKERHUB_DATA) []) = [Sample.python_record].
Proof. vm_compute. reflexivity. Defined.

(** C2: every record [fetch_items] emits is the parsed upstream payload
    with the field [fetched_on] set to the timestamp read locally after
    the call: the record has that one [fetched_on], whatever the payload
    had under that name, and every other field is the payload's. *)
Theorem fetch_items_record_is_stamped_payload `{Runtime} (env : Env)
    (self : DockerHub.t) (category : string) (tr : list event) (record : json) :
  record ∈ yielded (events_of (DockerHub.fetch_items env self category) tr) →
  ∃ before req resp t after payload fields,
    events_of (DockerHub.fetch_items env self category) tr
      = before ++ [Http req (Ok resp); Clock t; Yield record] ++ after
    ∧ t = utcnow env (tr ++ before ++ [Http req (Ok resp)])
    ∧ json_loads (text resp) = Ok (JDict payload)
    ∧ record = JDict fields
    ∧ fields = <["fetched_on" := JFloat t]> payload
    ∧ fields !! "fetched_on" = Some (JFloat t)
    ∧ (∀ key, key ≠ "fetched_on" → fields !! key = payload !! key)
    ∧ dom fields = {["fetched_on"]} ∪ dom payload.
Proof.
  run_cases; simpl; intros Hin; try (by apply elem_of_nil in Hin).
  apply list_elem_of_singleton in Hin. subst record.
  eexists [_; _], req, resp, t, [_], payload, _.
  split; [reflexivity|]. split; [by subst t|]. split; [done|].
  split; [reflexivity|]. split; [reflexivity|].
  split; [by rewrite lookup_insert_eq|].
  split; [by intros key Hkey; rewrite lookup_insert_ne|].
  by rewrite dom_insert_L.
Qed.

Lemma fetch_items_record_is_stamped_payload_witness :
  ∃ before req resp t after payload fields,
    events_of (Sample.fetch_items (Sample.connect "_" "python")
                 CATEGORY_DOCKERHUB_DATA) []
      = before ++ [Http req (Ok resp); Clock t; Yield Sample.python_record]
          ++ after
    ∧ t = utcnow Sample.env ([] ++ before ++ [Http req (Ok resp)])
    ∧ Sample.loads (text resp) = Ok (JDict payload)
    ∧ Sample.python_record = JDict fields
    ∧ fields = <["fetched_on" := JFloat t]> payload
    ∧ fields !! "fetched_on" = Some (JFloat t)
    ∧ (∀ key, key ≠ "fetched_on" → fields !! key = payload !! key)
    ∧ dom fields = {["fetched_on"]} ∪ dom payload.
Proof.
  apply (@fetch_items_record_is_stamped_payload Sample.runtime Sample.env
           (Sample.connect "_" "python") CATEGORY_DOCKERHUB_DATA []
           Sample.python_record).
  change (Sample.python_record ∈ yielded (events_of (Sample.fetch_items
            (Sample.connect "_" "python") CATEGORY_DOCKERHUB_DATA) [])).
  rewrite python_record_yielded. apply list_elem_of_here.
Defined.

(** An upstream [fetched_on] does not survive: the local timestamp takes
    its place. *)
Lemma setitem_replaces (payload : gmap string json) (old stamp : json) :
  setitem (JDict (<["fetched_on" := old]> payload)) "fetched_on" stamp
  = setitem (JDict payload) "fetched_on" stamp.
Proof. simpl. by rewrite insert_insert_eq. Qed.

(** ** The identity of the connector *)

(** C3: built with the owner ["_"], the connector has the origin and the
    owner of the connector built with the owner ["library"] for the same
    repository; for the repository ["python"] the origin is
    ["https://hub.docker.com/library/python"]. *)
Theorem shortcut_owner_is_library (repository : string) (tag : option string)
    (archive : option Archive) :
  DockerHub.origin (DockerHub.__init__ "_" repository tag archive)
    = DockerHub.origin (DockerHub.__init__ "library" repository tag archive)
  ∧ DockerHub.owner (DockerHub.__init__ "_" repository tag archive)
    = DockerHub.owner (DockerHub.__init__ "library" repository tag archive)
  ∧ DockerHub.owner (DockerHub.__init__ "_" repository tag archive) = "library"
  ∧ DockerHub.origin (DockerHub.__init__ "_" "python" tag archive)
    = "https://hub.docker.com/library/python".
Proof. repeat split; reflexivity. Qed.

(** Any other owner is kept as it is given. *)
Lemma other_owner_is_kept (owner repository : string) (tag : option string)
    (archive : option Archive) :
  owner ≠ "_" →
  DockerHub.owner (DockerHub.__init__ owner repository tag archive) = owner.
Proof.
  intros Hne. unfold DockerHub.__init__. simpl.
  destruct (String.eqb_spec owner DOCKER_SHORTCUT_OWNER) as [->|]; [|done].
  by destruct Hne.
Qed.

(** ** The request of the client *)

(** C4, as the spec states it, fails for an owner that ends with a slash:
    the join drops the slash, the URL of the spec keeps it. *)
Lemma repository_url_trailing_slash :
  requests (events_of (DockerHubClient.repository Sample.env
              (DockerHubClient.__init__ None false) "grimoirelab/" "perceval") [])
  ≠ [{| req_method := GET;
        req_url := repository_endpoint "grimoirelab/" "perceval";
        req_payload := None;
        req_headers := None |}].
Proof. vm_compute. intros [=]. Qed.

(** C4, amended: the client sends one request, a GET without parameters,
    to the join of the API base URL, ["repositories"], the owner and the
    repository; the join trims the slashes at both ends of each part, so
    the URL is [https://hub.docker.com/v2/repositories/{owner}/{repository}]
    for the trimmed owner and repository. *)
Theorem repository_sends_one_get (env : Env) (archive : option Archive)
    (from_archive : bool) (owner repository : string) (tr : list event) :
  requests (events_of (DockerHubClient.repository env
              (DockerHubClient.__init__ archive from_archive) owner repository) tr)
  = [{| req_method := GET;
        req_url := urijoin [DOCKERHUB_API_URL; "repositories"; owner; repository];
        req_payload := None;
        req_headers := None |}]
  ∧ urijoin [DOCKERHUB_API_URL; "repositories"; owner; repository]
    = repository_endpoint (strip "/" owner) (strip "/" repository).
Proof.
  split; [|reflexivity].
  erewrite events_of_app; [|by rewrite repository_run]. reflexivity.
Qed.

(** ** Failures *)

(** C5: when the HTTP call made by [client.repository] fails, the run of
    [fetch_items] ends with that very error and has yielded no record. *)
Theorem fetch_items_http_error_propagates `{Runtime} (env : Env)
    (self : DockerHub.t) (category : string) (tr : list event)
    (req : request) (e : exn) :
  Http req (Raise e) ∈ events_of (DockerHub.fetch_items env self category) tr →
  outcome (DockerHub.fetch_items env self category) tr = Raise e
  ∧ yielded (events_of (DockerHub.fetch_items env self category) tr) = [].
Proof.
  run_cases; intros Hin; set_unfold in Hin;
    destruct_or?; simplify_eq; by split.
Qed.

Lemma fetch_items_http_error_propagates_witness :
  outcome (Sample.fetch_items (Sample.connect "grimoirelab" "none")
             CATEGORY_DOCKERHUB_DATA) [] = Raise (HTTPError 404)
  ∧ yielded (events_of (Sample.fetch_items (Sample.connect "grimoirelab" "none")
               CATEGORY_DOCKERHUB_DATA) []) = [].
Proof.
  apply (@fetch_items_http_error_propagates Sample.runtime Sample.env
           (Sample.connect "grimoirelab" "none") CATEGORY_DOCKERHUB_DATA []
           Sample.missing_request (HTTPError 404)).
  vm_compute. do 2 apply list_elem_of_further. apply list_elem_of_here.
Defined.

(** C6: when the body of the response is not valid JSON, the run of
    [fetch_items] ends with the error of the parser and has yielded no
    record. *)
Theorem fetch_items_parse_error_propagates `{Runtime} (env : Env)
    (self : DockerHub.t) (category : string) (tr : list event)
    (req : request) (resp : response) (e : exn) :
  Http req (Ok resp) ∈ events_of (DockerHub.fetch_items env self category) tr →
  json_loads (text resp) = Raise e →
  outcome (DockerHub.fetch_items env self category) tr = Raise e
  ∧ yielded (events_of (DockerHub.fetch_items env self category) tr) = [].
Proof.
  run_cases; intros Hin Hloads; set_unfold in Hin;
    destruct_or?; simplify_eq; split; first [congruence | reflexivity].
Qed.

Lemma fetch_items_parse_error_propagates_witness :
  outcome (Sample.fetch_items (Sample.connect "grimoirelab" "broken")
             CATEGORY_DOCKERHUB_DATA) [] = Raise (JSONDecodeError "Expecting value")
  ∧ yielded (events_of (Sample.fetch_items (Sample.connect "grimoirelab" "broken")
               CATEGORY_DOCKERHUB_DATA) []) = [].
Proof.
  apply (@fetch_items_parse_error_propagates Sample.runtime Sample.env
           (Sample.connect "grimoirelab" "broken") CATEGORY_DOCKERHUB_DATA []
           Sample.broken_request {| status_code := 200; text := "<html>" |}
           (JSONDecodeError "Expecting value")).
  - vm_compute. do 2 apply list_elem_of_further. apply list_elem_of_here.
  - vm_compute. reflexivity.
Defined.

(** C10: when the body of the response is valid JSON but not an object,
    the run of [fetch_items] ends with a [TypeError] and has yielded no
    record: the parsed value does not accept the assignment of the
    [fetched_on] field. *)
Theorem fetch_items_rejects_non_object `{Runtime} (env : Env)
    (self : DockerHub.t) (category : string) (tr : list event)
    (req : request) (resp : response) (data : json) :
  Http req (Ok resp) ∈ events_of (DockerHub.fetch_items env self category) tr →
  json_loads (text resp) = Ok data →
  (∀ payload, data ≠ JDict payload) →
  ∃ msg,
    (∀ fetched_on, setitem data "fetched_on" fetched_on = Raise (TypeError msg))
    ∧ outcome (DockerHub.fetch_items env self category) tr = Raise (TypeError msg)
    ∧ yielded (events_of (DockerHub.fetch_items env self category) tr) = [].
Proof.
  run_cases; intros Hin Hloads Hdata; set_unfold in Hin;
    destruct_or?; simplify_eq.
  - congruence.
  - assert (data0 = data) as -> by congruence.
    destruct data; simplify_eq/=; eauto.
  - assert (data = JDict payload) as -> by congruence.
    by destruct (Hdata payload).
Qed.

Lemma fetch_items_rejects_non_object_witness :
  ∃ msg,
    (∀ fetched_on,
       setitem (JList [JInt 1; JInt 2]) "fetched_on" fetched_on
       = Raise (TypeError msg))
    ∧ outcome (Sample.fetch_items (Sample.connect "grimoirelab" "perceval")
                 CATEGORY_DOCKERHUB_DATA) [] = Raise (TypeError msg)
    ∧ yielded (events_of (Sample.fetch_items (Sample.connect "grimoirelab" "perceval")
                 CATEGORY_DOCKERHUB_DATA) []) = [].
Proof.
  apply (@fetch_items_rejects_non_object Sample.runtime Sample.env
           (Sample.connect "grimoirelab" "perceval") CATEGORY_DOCKERHUB_DATA []
           Sample.list_request {| status_code := 200; text := "[1, 2]" |}
           (JList [JInt 1; JInt 2])).
  - vm_compute. do 2 apply list_elem_of_further. apply list_elem_of_here.
  - vm_compute. reflexivity.
  - intros payload. discriminate.
Defined.

(** C7: [fetch] with a category other than ["dockerhub-data"] is
    rejected with an error, before any request is sent: the run has no
    event at all. *)
Theorem fetch_rejects_other_category `{Runtime} (env : Env)
    (self : DockerHub.t) (category : string) (tr : list event) :
  category ≠ CATEGORY_DOCKERHUB_DATA →
  (∃ cause,
     outcome (DockerHub.fetch env self category) tr = Raise (BackendError cause))
  ∧ events_of (DockerHub.fetch env self category) tr = []
  ∧ requests (events_of (DockerHub.fetch env self category) tr) = [].
Proof.
  intros Hcat.
  assert (DockerHub.fetch env self category
          = raise (BackendError (category +:+ " category not valid")))
    as ->.
  { unfold DockerHub.fetch, Backend.fetch, DockerHub.CATEGORIES.
    case_decide as Hin; [|reflexivity].
    apply list_elem_of_singleton in Hin. contradiction. }
  rewrite events_of_raise. eauto.
Qed.

Lemma fetch_rejects_other_category_witness :
  (∃ cause,
     outcome (Sample.fetch (DockerHub.__init__ "_" "python" None None)
                "dockerhub-tags") [] = Raise (BackendError cause))
  ∧ events_of (Sample.fetch (DockerHub.__init__ "_" "python" None None)
                 "dockerhub-tags") [] = []
  ∧ requests (events_of (Sample.fetch (DockerHub.__init__ "_" "python" None None)
                 "dockerhub-tags") []) = [].
Proof.
  apply (@fetch_rejects_other_category Sample.runtime Sample.env
           (DockerHub.__init__ "_" "python" None None) "dockerhub-tags" []).
  discriminate.
Defined.

(** ** Metadata *)

(** C8: on every record the backend produces, [metadata_id] is [str] of
    the record's [fetched_on] field and [metadata_updated_on] is that
    field: the record is a [dict], its [fetched_on] entry is the reading
    of the clock of that run, [metadata_updated_on] returns that reading
    and [metadata_id] its [str]. *)
Theorem metadata_of_fetched_record `{Runtime} (env : Env)
    (self : DockerHub.t) (category : string) (tr : list event) (record : json) :
  record ∈ yielded (events_of (DockerHub.fetch_items env self category) tr) →
  ∃ fields t,
    record = JDict fields
    ∧ fields !! "fetched_on" = Some (JFloat t)
    ∧ Clock t ∈ events_of (DockerHub.fetch_items env self category) tr
    ∧ DockerHub.metadata_id record = Ok (py_str (JFloat t))
    ∧ DockerHub.metadata_updated_on record = Ok (JFloat t).
Proof.
  run_cases; simpl; intros Hin; try (by apply elem_of_nil in Hin).
  apply list_elem_of_singleton in Hin. subst record.
  eexists _, t. split; [reflexivity|].
  split; [by rewrite lookup_insert_eq|].
  split; [do 3 apply list_elem_of_further; apply list_elem_of_here|].
  unfold DockerHub.metadata_id, DockerHub.metadata_updated_on. simpl.
  by rewrite lookup_insert_eq.
Qed.

Lemma metadata_of_fetched_record_witness :
  ∃ fields t,
    Sample.python_record = JDict fields
    ∧ fields !! "fetched_on" = Some (JFloat t)
    ∧ Clock t ∈ events_of (Sample.fetch_items (Sample.connect "_" "python")
                             CATEGORY_DOCKERHUB_DATA) []
    ∧ Sample.metadata_id Sample.python_record = Ok (Sample.str (JFloat t))
    ∧ Sample.metadata_updated_on Sample.python_record = Ok (JFloat t).
Proof.
  apply (@metadata_of_fetched_record Sample.runtime Sample.env
           (Sample.connect "_" "python") CATEGORY_DOCKERHUB_DATA []
           Sample.python_record).
  change (Sample.python_record ∈ yielded (events_of (Sample.fetch_items
            (Sample.connect "_" "python") CATEGORY_DOCKERHUB_DATA) [])).
  rewrite python_record_yielded. apply list_elem_of_here.
Defined.

(** C9: [metadata_category] is ["dockerhub-data"] on every item. *)
Theorem metadata_category_is_constant (item : json) :
  DockerHub.metadata_category item = "dockerhub-data".
Proof. reflexivity. Qed.

(** ** The examples of the spec *)

(** Owner ["_"], repository ["python"]: the client requests
    ["https://hub.docker.com/v2/repositories/library/python"], and the
    record is the body of the response with the time of the fetch. *)
Example fetch_python :
  requests (events_of (Sample.fetch (DockerHub.__init__ "_" "python" None None)
              CATEGORY_DOCKERHUB_DATA) [])
  = [Sample.get "https://hub.docker.com/v2/repositories/library/python"]
  ∧ yielded (events_of (Sample.fetch (DockerHub.__init__ "_" "python" None None)
               CATEGORY_DOCKERHUB_DATA) [])
    = [Sample.python_record].
Proof. split; vm_compute; reflexivity. Qed.

Example metadata_python :
  Sample.metadata_id Sample.python_record = Ok "1600000003.0"
  ∧ Sample.metadata_updated_on Sample.python_record = Ok (JFloat 1600000003.0)
  ∧ DockerHub.metadata_category Sample.python_record = "dockerhub-data".
Proof. repeat split; vm_compute; reflexivity. Qed.

(** * More properties of the backend *)

(** ** Strings without slashes *)

Lemma lstrip_no_slash s : has_slash s = false → lstrip "/" s = s.
Proof. destruct s as [|a s]; simpl; [done|]. by destruct (Ascii.eqb a "/"). Qed.

Lemma rstrip_no_slash s : has_slash s = false → rstrip "/" s = s.
Proof.
  induction s as [|a s IH]; simpl; [done|].
  destruct (Ascii.eqb a "/") eqn:Ha; simpl; [done|].
  intros Hs. rewrite (IH Hs). by destruct s.
Qed.

Lemma strip_no_slash s : has_slash s = false → slash_free_ends s.
Proof.
  intros Hs. unfold slash_free_ends, strip.
  by rewrite lstrip_no_slash, rstrip_no_slash.
Qed.

Lemma append_inv_head p x y : p +:+ x = p +:+ y → x = y.
Proof. induction p as [|a p IH]; simpl; [done|]. intros [=]. auto. Qed.

(** The first slash splits a path in one way only. *)
Lemma split_at_first_slash a b c d :
  has_slash a = false → has_slash c = false →
  a +:+ "/" +:+ b = c +:+ "/" +:+ d → a = c ∧ b = d.
Proof.
  revert c. induction a as [|x a IH]; intros [|y c]; simpl.
  - by intros _ _ [=].
  - intros _ Hc [= <- _]. discriminate.
  - intros Ha _ [= -> _]. discriminate.
  - intros Ha Hc [= <- Heq].
    apply orb_false_iff in Ha as [_ Ha]. apply orb_false_iff in Hc as [_ Hc].
    destruct (IH c Ha Hc Heq) as [-> ->]. done.
Qed.

(** ** Every run of [fetch_items] *)

(** Finds an event in a trace that is written out. *)
Ltac in_trace :=
  repeat first [apply list_elem_of_here | apply list_elem_of_further].

(** X1: a connector straight from its constructor has no client: on it
    [fetch_items] logs that it starts and raises [AttributeError]; it
    sends no request, reads no clock and yields nothing. *)
Theorem fetch_items_without_client `{Runtime} (env : Env)
    (owner repository : string) (tag : option string)
    (archive : option Archive) (category : string) (tr : list event) :
  (∃ msg,
     outcome (DockerHub.fetch_items env
                (DockerHub.__init__ owner repository tag archive) category) tr
     = Raise (AttributeError msg))
  ∧ events_of (DockerHub.fetch_items env
                 (DockerHub.__init__ owner repository tag archive) category) tr
    = [started (DockerHub.__init__ owner repository tag archive)].
Proof.
  run_cases; try discriminate. eauto.
Qed.

(** X2: whatever makes it fail, a run of [fetch_items] that raises has yielded
    nothing. *)
Theorem fetch_items_failure_yields_nothing `{Runtime} (env : Env)
    (self : DockerHub.t) (category : string) (tr : list event) (e : exn) :
  outcome (DockerHub.fetch_items env self category) tr = Raise e →
  yielded (events_of (DockerHub.fetch_items env self category) tr) = [].
Proof. run_cases; intros Hout; by try discriminate. Qed.

Lemma fetch_items_failure_yields_nothing_witness :
  yielded (events_of (Sample.fetch_items (Sample.connect "grimoirelab" "broken")
             CATEGORY_DOCKERHUB_DATA) []) = [].
Proof.
  apply (@fetch_items_failure_yields_nothing Sample.runtime Sample.env
           (Sample.connect "grimoirelab" "broken") CATEGORY_DOCKERHUB_DATA []
           (JSONDecodeError "Expecting value")).
  vm_compute. reflexivity.
Defined.

(** X3: a run of [fetch_items] sends at most one request, reads the clock at
    most once and yields at most one record; it reads the clock only
    after a request, and yields only after it has read the clock:
    whatever comes before a reading of the clock holds a call that
    returned a response, and whatever comes before a yield holds a
    reading of the clock. *)
Theorem fetch_items_at_most_once `{Runtime} (env : Env)
    (self : DockerHub.t) (category : string) (tr : list event) :
  (length (yielded (events_of (DockerHub.fetch_items env self category) tr))
    ≤ length (clock_readings (events_of (DockerHub.fetch_items env self category) tr)))%nat
  ∧ (length (clock_readings (events_of (DockerHub.fetch_items env self category) tr))
    ≤ length (requests (events_of (DockerHub.fetch_items env self category) tr)))%nat
  ∧ (length (requests (events_of (DockerHub.fetch_items env self category) tr)) ≤ 1)%nat
  ∧ (∀ before t after,
       events_of (DockerHub.fetch_items env self category) tr
         = before ++ Clock t :: after →
       ∃ req resp, Http req (Ok resp) ∈ before)
  ∧ (∀ before record after,
       events_of (DockerHub.fetch_items env self category) tr
         = before ++ Yield record :: after →
       ∃ t, Clock t ∈ before).
Proof.
  run_cases; (split; [simpl; lia|]); (split; [simpl; lia|]);
    (split; [simpl; lia|]); unfold started, requesting, completed.
  all: split; intros before x after Heq.
  all: repeat (destruct before as [|? before]; simplify_eq/=).
  all: eexists; try eexists; in_trace.
Qed.

Lemma fetch_items_requests `{Runtime} (env : Env)
    (self : DockerHub.t) (c : DockerHubClient.t) (category : string)
    (tr : list event) :
  DockerHub.client self = Some c →
  requests (events_of (DockerHub.fetch_items env self category) tr)
  = [repository_request c (DockerHub.owner self) (DockerHub.repository self)].
Proof. run_cases; intros Hc; simplify_eq; reflexivity. Qed.

(** X4: once the client is set, every run sends exactly one request, the GET
    for the owner and the repository of the connector, whether it then
    succeeds or not. *)
Theorem fetch_items_one_request `{Runtime} (env : Env)
    (self : DockerHub.t) (c : DockerHubClient.t) (category : string)
    (tr : list event) :
  DockerHub.client self = Some c →
  requests (events_of (DockerHub.fetch_items env self category) tr)
  = [{| req_method := GET;
        req_url := urijoin [HttpClient.base_url c; "repositories";
                            DockerHub.owner self; DockerHub.repository self];
        req_payload := None;
        req_headers := None |}].
Proof. apply fetch_items_requests. Qed.

Lemma fetch_items_one_request_witness :
  requests (events_of (Sample.fetch_items (Sample.connect "grimoirelab" "none")
              CATEGORY_DOCKERHUB_DATA) [])
  = [{| req_method := GET;
        req_url := urijoin [HttpClient.base_url
                              (DockerHubClient.__init__ None false);
                            "repositories";
                            DockerHub.owner (Sample.connect "grimoirelab" "none");
                            DockerHub.repository (Sample.connect "grimoirelab" "none")];
        req_payload := None;
        req_headers := None |}].
Proof.
  apply (@fetch_items_one_request Sample.runtime Sample.env
           (Sample.connect "grimoirelab" "none")
           (DockerHubClient.__init__ None false) CATEGORY_DOCKERHUB_DATA []).
  reflexivity.
Defined.

(** X5: a run of [fetch_items] fails in one of four ways only: the client is
    missing, the transport raised, the parser raised, or the parsed value
    is not a [dict] and the assignment raised [TypeError]; the exception
    that comes out is the one that was raised. *)
Theorem fetch_items_failure_causes `{Runtime} (env : Env)
    (self : DockerHub.t) (category : string) (tr : list event) (e : exn) :
  outcome (DockerHub.fetch_items env self category) tr = Raise e →
  (DockerHub.client self = None ∧ ∃ msg, e = AttributeError msg)
  ∨ (∃ req,
       Http req (Raise e)
         ∈ events_of (DockerHub.fetch_items env self category) tr)
  ∨ (∃ req resp,
       Http req (Ok resp)
         ∈ events_of (DockerHub.fetch_items env self category) tr
       ∧ json_loads (text resp) = Raise e)
  ∨ (∃ req resp data msg,
       Http req (Ok resp)
         ∈ events_of (DockerHub.fetch_items env self category) tr
       ∧ json_loads (text resp) = Ok data
       ∧ (∀ payload, data ≠ JDict payload)
       ∧ e = TypeError msg).
Proof.
  run_cases; intros Hout; simplify_eq.
  - left. eauto.
  - right. left. eexists. in_trace.
  - right. right. left. eexists _, resp. split; [in_trace|done].
  - right. right. right.
    assert (∃ msg, e = TypeError msg) as [msg ->]
      by (destruct data; simplify_eq/=; eauto).
    eexists _, resp, data, msg. split; [in_trace|done].
Qed.

Lemma fetch_items_failure_causes_witness :
  (DockerHub.client (Sample.connect "grimoirelab" "none") = None
   ∧ ∃ msg, HTTPError 404 = AttributeError msg)
  ∨ (∃ req,
       Http req (Raise (HTTPError 404))
         ∈ events_of (Sample.fetch_items (Sample.connect "grimoirelab" "none")
                        CATEGORY_DOCKERHUB_DATA) [])
  ∨ (∃ req resp,
       Http req (Ok resp)
         ∈ events_of (Sample.fetch_items (Sample.connect "grimoirelab" "none")
                        CATEGORY_DOCKERHUB_DATA) []
       ∧ Sample.loads (text resp) = Raise (HTTPError 404))
  ∨ (∃ req resp data msg,
       Http req (Ok resp)
         ∈ events_of (Sample.fetch_items (Sample.connect "grimoirelab" "none")
                        CATEGORY_DOCKERHUB_DATA) []
       ∧ Sample.loads (text resp) = Ok data
       ∧ (∀ payload, data ≠ JDict payload)
       ∧ HTTPError 404 = TypeError msg).
Proof.
  apply (@fetch_items_failure_causes Sample.runtime Sample.env
           (Sample.connect "grimoirelab" "none") CATEGORY_DOCKERHUB_DATA []
           (HTTPError 404)).
  vm_compute. reflexivity.
Defined.

(** X6: the start of the fetch is logged before anything else, and its
    completion is logged exactly when the run ends without an exception,
    as the last thing it does. *)
Theorem fetch_items_logs `{Runtime} (env : Env)
    (self : DockerHub.t) (category : string) (tr : list event) :
  head (events_of (DockerHub.fetch_items env self category) tr)
    = Some (Log INFO ("Fetching data from '" +:+ DockerHub.repository self
                      +:+ "' repository of '" +:+ DockerHub.owner self
                      +:+ "' owner"))
  ∧ (Log INFO "Fetch process completed"
       ∈ events_of (DockerHub.fetch_items env self category) tr
     ↔ outcome (DockerHub.fetch_items env self category) tr = Ok tt)
  ∧ (outcome (DockerHub.fetch_items env self category) tr = Ok tt →
     last (events_of (DockerHub.fetch_items env self category) tr)
     = Some (Log INFO "Fetch process completed")).
Proof.
  run_cases; (split; [reflexivity|]); split.
  all: try (intros Hok; first [discriminate Hok | reflexivity]).
  all: split; intros Hin; try reflexivity; try discriminate Hin; try in_trace.
  all: exfalso; unfold started, requesting in Hin; simpl in Hin;
    set_unfold in Hin; destruct_or?; discriminate.
Qed.

(** X7: two fetches of the same connector, at any two moments, give records
    that differ in [fetched_on] at most: the transport answers a request
    in one way, and nothing else of the record depends on the moment. *)
Theorem refetch_differs_in_stamp_only `{Runtime} (env : Env)
    (self : DockerHub.t) (category1 category2 : string)
    (tr1 tr2 : list event) (record1 record2 : json) :
  record1 ∈ yielded (events_of (DockerHub.fetch_items env self category1) tr1) →
  record2 ∈ yielded (events_of (DockerHub.fetch_items env self category2) tr2) →
  ∃ fields1 fields2,
    record1 = JDict fields1 ∧ record2 = JDict fields2
    ∧ delete "fetched_on" fields1 = delete "fetched_on" fields2
    ∧ (∀ key, key ≠ "fetched_on" → fields1 !! key = fields2 !! key).
Proof.
  run_cases; simpl; intros Hin1; try (by apply elem_of_nil in Hin1).
  run_cases; simpl; intros Hin2; try (by apply elem_of_nil in Hin2).
  apply list_elem_of_singleton in Hin1, Hin2. subst record1 record2.
  assert (payload0 = payload) as -> by congruence.
  eexists _, _. split; [reflexivity|]. split; [reflexivity|].
  split; [by rewrite !delete_insert_eq|].
  intros key Hkey. by rewrite !lookup_insert_ne.
Qed.

Lemma refetch_differs_in_stamp_only_witness :
  ∃ fields1 fields2,
    python_record_at 1600000003.0 = JDict fields1
    ∧ python_record_at 1600000009.0 = JDict fields2
    ∧ delete "fetched_on" fields1 = delete "fetched_on" fields2
    ∧ (∀ key, key ≠ "fetched_on" → fields1 !! key = fields2 !! key).
Proof.
  apply (@refetch_differs_in_stamp_only Sample.runtime Sample.env
           (Sample.connect "_" "python")
           CATEGORY_DOCKERHUB_DATA CATEGORY_DOCKERHUB_DATA
           []
           (snd (Sample.fetch_items (Sample.connect "_" "python")
                   CATEGORY_DOCKERHUB_DATA []))).
  - vm_compute. apply list_elem_of_here.
  - vm_compute. apply list_elem_of_here.
Defined.

(** ** The client *)

(** X8: [repository] logs the URL at the debug level, then sends its one
    request; it returns the text of the response as it is, and lets the
    exception of the transport through as it is. *)
Theorem repository_returns_text (env : Env) (c : DockerHubClient.t)
    (owner repository : string) (tr : list event) :
  events_of (DockerHubClient.repository env c owner repository) tr
  = [Log DEBUG ("DockerHub client requests: "
                +:+ urijoin [HttpClient.base_url c; "repositories";
                             owner; repository]);
     Http (repository_request c owner repository)
          (http env (repository_request c owner repository))]
  ∧ outcome (DockerHubClient.repository env c owner repository) tr
    = match http env (repository_request c owner repository) with
      | Ok resp => Ok (text resp)
      | Raise e => Raise e
      end.
Proof.
  split.
  - apply events_of_app. by rewrite repository_run.
  - unfold outcome. rewrite repository_run. simpl.
    by destruct (http env _).
Qed.

(** ** The identity of the connector and what it fetches *)

(** X9: the fetch addresses the repository that the origin names: the origin
    and the URL of the request end with the same path, the owner (with
    ["library"] for ["_"]) and the repository, each trimmed of the
    slashes at its ends. *)
Theorem fetch_addresses_origin `{Runtime} (env : Env)
    (owner repository : string) (tag : option string)
    (archive : option Archive) (from_archive : bool)
    (category : string) (tr : list event) :
  DockerHub.origin (DockerHub.__init__ owner repository tag archive)
  = "https://hub.docker.com/"
      +:+ strip "/" (if String.eqb owner "_" then "library" else owner)
      +:+ "/" +:+ strip "/" repository
  ∧ requests (events_of (DockerHub.fetch_items env
       (with_client (DockerHub.__init__ owner repository tag archive)
          from_archive) category) tr)
    = [{| req_method := GET;
          req_url := "https://hub.docker.com/v2/repositories/"
            +:+ strip "/" (if String.eqb owner "_" then "library" else owner)
            +:+ "/" +:+ strip "/" repository;
          req_payload := None;
          req_headers := None |}].
Proof.
  split; [reflexivity|].
  by rewrite (fetch_items_requests env
       (with_client (DockerHub.__init__ owner repository tag archive) from_archive)
       _ category tr eq_refl).
Qed.

(** X10: a connector built again from the owner and the repository that a
    connector has stored is that connector: the replacement of ["_"] is
    done once and for all. *)
Theorem init_from_stored_owner (owner repository : string)
    (tag : option string) (archive : option Archive) :
  DockerHub.__init__
    (DockerHub.owner (DockerHub.__init__ owner repository tag archive))
    (DockerHub.repository (DockerHub.__init__ owner repository tag archive))
    tag archive
  = DockerHub.__init__ owner repository tag archive.
Proof.
  unfold DockerHub.__init__. simpl.
  destruct (String.eqb owner DOCKER_SHORTCUT_OWNER) eqn:Ho; [reflexivity|].
  by rewrite Ho.
Qed.

(** X11: among owners without a slash and repositories without a slash at
    their ends, the origin tells connectors apart: two connectors with
    the same origin have stored the same owner and the same repository. *)
Theorem origin_identifies_connector (owner1 repository1 owner2 repository2 : string)
    (tag1 tag2 : option string) (archive1 archive2 : option Archive) :
  has_slash owner1 = false → has_slash owner2 = false →
  slash_free_ends repository1 → slash_free_ends repository2 →
  DockerHub.origin (DockerHub.__init__ owner1 repository1 tag1 archive1)
  = DockerHub.origin (DockerHub.__init__ owner2 repository2 tag2 archive2) →
  DockerHub.owner (DockerHub.__init__ owner1 repository1 tag1 archive1)
  = DockerHub.owner (DockerHub.__init__ owner2 repository2 tag2 archive2)
  ∧ DockerHub.repository (DockerHub.__init__ owner1 repository1 tag1 archive1)
    = DockerHub.repository (DockerHub.__init__ owner2 repository2 tag2 archive2).
Proof.
  intros Ho1 Ho2 Hr1 Hr2.
  unfold DockerHub.origin, DockerHub.__init__. simpl.
  set (o1 := if String.eqb owner1 _ then _ else _).
  set (o2 := if String.eqb owner2 _ then _ else _).
  assert (has_slash o1 = false) as Hs1 by (subst o1; by case_match).
  assert (has_slash o2 = false) as Hs2 by (subst o2; by case_match).
  unfold urijoin. cbn [map join].
  rewrite (strip_no_slash o1 Hs1), (strip_no_slash o2 Hs2), Hr1, Hr2.
  change (strip "/" DOCKERHUB_URL) with "https://hub.docker.com".
  intros Heq. apply append_inv_head in Heq.
  apply (append_inv_head "/") in Heq.
  by apply split_at_first_slash.
Qed.

Lemma origin_identifies_connector_witness :
  DockerHub.owner (DockerHub.__init__ "_" "python" None None)
  = DockerHub.owner (DockerHub.__init__ "library" "python" (Some "official") None)
  ∧ DockerHub.repository (DockerHub.__init__ "_" "python" None None)
    = DockerHub.repository
        (DockerHub.__init__ "library" "python" (Some "official") None).
Proof.
  apply (origin_identifies_connector "_" "python" "library" "python"
           None (Some "official") None None); reflexivity.
Defined.

(** ** Metadata of items the backend did not stamp *)

(** X12: on a [dict] without the key [fetched_on], such as the payload of the
    registry before the backend has stamped it, [metadata_id] and
    [metadata_updated_on] raise [KeyError] for that key. *)
Theorem metadata_missing_stamp `{Runtime} (fields : gmap string json) :
  fields !! "fetched_on" = None →
  DockerHub.metadata_id (JDict fields) = Raise (KeyError "fetched_on")
  ∧ DockerHub.metadata_updated_on (JDict fields) = Raise (KeyError "fetched_on").
Proof.
  intros Hnone. unfold DockerHub.metadata_id, DockerHub.metadata_updated_on.
  simpl. by rewrite Hnone.
Qed.

Lemma metadata_missing_stamp_witness :
  Sample.metadata_id (JDict python_payload) = Raise (KeyError "fetched_on")
  ∧ Sample.metadata_updated_on (JDict python_payload)
    = Raise (KeyError "fetched_on").
Proof.
  apply (@metadata_missing_stamp Sample.runtime python_payload).
  vm_compute. reflexivity.
Defined.

(** X13: on an item that is not a [dict], [metadata_id] and
    [metadata_updated_on] raise the same [TypeError]. *)
Theorem metadata_of_non_dict `{Runtime} (item : json) :
  (∀ fields, item ≠ JDict fields) →
  ∃ msg,
    DockerHub.metadata_id item = Raise (TypeError msg)
    ∧ DockerHub.metadata_updated_on item = Raise (TypeError msg).
Proof.
  intros Hitem. unfold DockerHub.metadata_id, DockerHub.metadata_updated_on.
  destruct item; simpl; eauto. by destruct (Hitem m).
Qed.

Lemma metadata_of_non_dict_witness :
  ∃ msg,
    Sample.metadata_id (JList [JInt 1; JInt 2]) = Raise (TypeError msg)
    ∧ Sample.metadata_updated_on (JList [JInt 1; JInt 2]) = Raise (TypeError msg).
Proof.
  apply (@metadata_of_non_dict Sample.runtime (JList [JInt 1; JInt 2])).
  intros fields. discriminate.
Defined.
